(** * Rolling-shutter flash controller (rolling_shutter.cpp)

    The program waits for the sensor's XVS edge, spins on the clock for the
    dead time T1 + T2, and fires the LED for FT inside the window T3.

    The file has two layers.
    - [Timing]: the [constexpr] constants of lines 38-63 and the
      [static_assert] of line 58, as the translation of the unit sees them.
    - [Controller]: [main] (lines 86-161), [signal_handler] (68-72) and
      [set_realtime_priority] (75-84) as a step function on an explicit
      state.  Labels carry the number of the source line they stand for.
      What the program cannot decide itself (return values of the scheduler,
      of libgpiod, of the clock, and the arrival of SIGINT) is read from a
      [world]. *)

From Stdlib Require Import ZArith List String Ascii Bool Lia PeanoNat.
Import ListNotations.
Local Open Scope string_scope.
Local Open Scope list_scope.
Local Open Scope Z_scope.

(* ===================================================================== *)
(** ** Timing constants (lines 33-63)                                      *)
(* ===================================================================== *)

Module Timing.

(** [long long] is 64 bits wide on the targets of this program. *)
Definition LLONG_MIN : Z := - 2 ^ 63.
Definition LLONG_MAX : Z := 2 ^ 63 - 1.

Definition in_ll (z : Z) : bool := (LLONG_MIN <=? z) && (z <=? LLONG_MAX).

(** The four literals a build is made from (lines 38, 42, 46, 54). *)
Record literals := Literals {
  lit_T1   : Z;   (* T1_VERTICAL_BLANKING_NS *)
  lit_T2   : Z;   (* T2_ROLL_UP_TIME_NS *)
  lit_TEXP : Z;   (* TOTAL_EXPOSURE_TIME_NS *)
  lit_FT   : Z    (* FLASH_DURATION_NS *)
}.

(** The six [constexpr long long] objects of a translated unit. *)
Record constants := Constants {
  T1_VERTICAL_BLANKING_NS : Z;
  T2_ROLL_UP_TIME_NS      : Z;
  TOTAL_EXPOSURE_TIME_NS  : Z;
  T3_MAGIC_WINDOW_NS      : Z;
  FLASH_DURATION_NS       : Z;
  TRIGGER_WAIT_NS         : Z
}.

(** Why a unit is refused.  A [constexpr] initialiser whose value leaves
    [long long] is not a constant expression; line 58 is the assertion. *)
Inductive diagnostic :=
| NotConstant (name : string)
| StaticAssert (msg : string).

Inductive translation :=
| Rejected (d : diagnostic)
| Translated (k : constants).

Definition static_assert_message : string :=
  "Flash Duration (FT) is longer than the Magic Window (T3)!".

(** Evaluation of one [constexpr long long] initialiser. *)
Definition constexpr (name : string) (v : Z)
    (rest : Z -> translation) : translation :=
  if in_ll v then rest v else Rejected (NotConstant name).

(** [static_assert(cond, msg)]. *)
Definition static_assert (cond : bool) (msg : string)
    (rest : translation) : translation :=
  if cond then rest else Rejected (StaticAssert msg).

(** Lines 38-63 in source order. *)
Definition translate (l : literals) : translation :=
  constexpr "T1_VERTICAL_BLANKING_NS" (lit_T1 l) (fun t1 =>
  constexpr "T2_ROLL_UP_TIME_NS" (lit_T2 l) (fun t2 =>
  constexpr "TOTAL_EXPOSURE_TIME_NS" (lit_TEXP l) (fun texp =>
  constexpr "T3_MAGIC_WINDOW_NS" (texp - t2) (fun t3 =>
  constexpr "FLASH_DURATION_NS" (lit_FT l) (fun ft =>
  static_assert (ft <? t3) static_assert_message (
  constexpr "TRIGGER_WAIT_NS" (t1 + t2) (fun trigger =>
  Translated (Constants t1 t2 texp t3 ft trigger)))))))).

(** The literals of the repository (IMX415). *)
Definition imx415 : literals :=
  {| lit_T1 := 284200; lit_T2 := 10579100;
     lit_TEXP := 15000000; lit_FT := 50000 |}.

Definition all_in_ll (l : literals) : Prop :=
  in_ll (lit_T1 l) = true /\ in_ll (lit_T2 l) = true /\
  in_ll (lit_TEXP l) = true /\ in_ll (lit_FT l) = true.

End Timing.

(* ===================================================================== *)
(** ** The controller (lines 28-31 and 65-161)                             *)
(* ===================================================================== *)

Module Controller.
Import Timing.

(** Lines 29-31. *)
Definition GPIO_CHIP_NAME : string := "gpiochip0".
Definition XVS_PIN_LINE : Z := 17.
Definition LED_PIN_LINE : Z := 18.

Definition SIGINT : Z := 2.
Definition CONSUMER : string := "rolling_shutter_flash".
Definition EVENT_WAIT_MS : Z := 500.

Inductive stream := Cout | Cerr.
Inductive request_type := EVENT_RISING_EDGE | DIRECTION_OUTPUT.

(** What the program does to the outside, one constructor per kind of call. *)
Inductive event :=
| SchedSetscheduler (ret : Z)                         (* line 78 *)
| Print (to : stream) (msg : string)
| ChipOpen (name : string)                            (* line 92 *)
| GetLine (offset : Z)                                (* lines 96, 105 *)
| Request (offset : Z) (consumer : string)
          (ty : request_type) (flags default_val : Z) (* lines 98, 106 *)
| SignalInstall (signum : Z)                          (* line 113 *)
| Banner                                              (* lines 115-122 *)
| EventWait (ms : Z) (got : bool)                     (* line 126 *)
| EventRead                                           (* line 130 *)
| Stamp (t : Z)                                       (* line 133 *)
| Poll (t : Z)                                        (* line 137 *)
| SetValue (offset : Z) (v : Z)                       (* lines 141, 148 *)
| SleepFor (ns : Z)                                   (* line 145 *)
| Throw (what : string).

(** Program points, named after the line that runs next. *)
Inductive label :=
| L89            (* set_realtime_priority() *)
| L92            (* gpiod::chip chip(GPIO_CHIP_NAME) *)
| L96            (* chip.get_line(XVS_PIN_LINE) *)
| L98            (* xvs_line.request(...) *)
| L101           (* std::cout << "XVS line requested ..." *)
| L105           (* chip.get_line(LED_PIN_LINE) *)
| L106           (* led_line.request(...) *)
| L109           (* std::cout << "LED line requested ..." *)
| L113           (* std::signal(SIGINT, signal_handler) *)
| L115           (* the banner *)
| L124           (* while (running) *)
| L126           (* if (xvs_line.event_wait(500ms)) *)
| L130           (* xvs_line.event_read() *)
| L133           (* xvs_time = now() *)
| L137           (* while (now() - xvs_time < TRIGGER_WAIT_NS) *)
| L141           (* led_line.set_value(1) *)
| L145           (* sleep_for(FLASH_DURATION_NS) *)
| L148           (* led_line.set_value(0) *)
| L152 (what : string)   (* catch (const std::exception &e) *)
| L158           (* after the try block *)
| Exit (status : Z).

(** The environment of one run.  An acquisition call either succeeds
    ([None]) or throws an exception whose [what()] is the string.  Calls
    inside the loop have the types the source uses them at: [event_wait]
    yields a [bool] ([true]: an edge, [false]: the 500 ms ran out), and
    the [k]-th reading of the clock is [now k], a count of nanoseconds
    whose differences are taken exactly.  [sigint n] says that SIGINT
    reaches the process just before its [n]-th step; a blocking call is
    one step, so a signal that arrives during a wait is one that arrives
    just before it. *)
Record world := World {
  sched_setscheduler : Z;
  chip_open    : option string;
  xvs_get_line : option string;
  xvs_request  : option string;
  led_get_line : option string;
  led_request  : option string;
  event_wait   : nat -> bool;
  now          : nat -> Z;
  sigint       : nat -> bool
}.

Record state := State {
  pc        : label;
  running   : bool;        (* line 66 *)
  installed : bool;        (* signal_handler is registered for SIGINT *)
  led       : option Z;    (* level of the LED line, once requested *)
  xvs_time  : Z;           (* line 133 *)
  n_wait    : nat;         (* calls of event_wait so far *)
  n_now     : nat;         (* calls of now() so far *)
  ticks     : nat;         (* steps taken so far *)
  trace     : list event   (* newest first *)
}.

(** Line 66: [volatile bool running = true]. *)
Definition init : state :=
  {| pc := L89; running := true; installed := false; led := None;
     xvs_time := 0; n_wait := 0; n_now := 0; ticks := 0; trace := [] |}.

(** Lines 68-72. *)
Definition signal_handler (signum : Z) (running : bool) : bool :=
  if signum =? SIGINT then false else running.

Definition warning_1 : string :=
  "Warning: Failed to set real-time priority. Timing may be imprecise.".
Definition warning_2 : string :=
  "         Run with 'sudo' to enable real-time.".
Definition error_hint : string :=
  "Please check GPIO chip name and line numbers.".
Definition xvs_requested : string :=
  "XVS line requested on chip gpiochip0, line 17".
Definition led_requested : string :=
  "LED line requested on chip gpiochip0, line 18".
Definition goodbye : string :=
  String (ascii_of_nat 10) "Caught signal. Cleaning up and exiting.".

(** Lines 75-84: what the function prints (oldest first), given what
    [sched_setscheduler] returned.  It has no other effect and returns. *)
Definition set_realtime_priority (ret : Z) : list event :=
  if ret =? -1
  then [Print Cerr warning_1; Print Cerr warning_2]
  else [Print Cout "Real-time priority set."].

Section Program.

Variable k : constants.
Variable w : world.

Definition goto (l : label) (s : state) : state :=
  {| pc := l; running := running s; installed := installed s; led := led s;
     xvs_time := xvs_time s; n_wait := n_wait s; n_now := n_now s;
     ticks := ticks s; trace := trace s |}.

Definition emit (e : event) (s : state) : state :=
  {| pc := pc s; running := running s; installed := installed s; led := led s;
     xvs_time := xvs_time s; n_wait := n_wait s; n_now := n_now s;
     ticks := ticks s; trace := e :: trace s |}.

Definition set_led (v : Z) (s : state) : state :=
  {| pc := pc s; running := running s; installed := installed s;
     led := Some v;
     xvs_time := xvs_time s; n_wait := n_wait s; n_now := n_now s;
     ticks := ticks s; trace := trace s |}.

Definition set_running (b : bool) (s : state) : state :=
  {| pc := pc s; running := b; installed := installed s; led := led s;
     xvs_time := xvs_time s; n_wait := n_wait s; n_now := n_now s;
     ticks := ticks s; trace := trace s |}.

Definition set_trace (tr : list event) (s : state) : state :=
  {| pc := pc s; running := running s; installed := installed s; led := led s;
     xvs_time := xvs_time s; n_wait := n_wait s; n_now := n_now s;
     ticks := ticks s; trace := tr |}.

Definition set_installed (s : state) : state :=
  {| pc := pc s; running := running s; installed := true; led := led s;
     xvs_time := xvs_time s; n_wait := n_wait s; n_now := n_now s;
     ticks := ticks s; trace := trace s |}.

Definition set_xvs_time (t : Z) (s : state) : state :=
  {| pc := pc s; running := running s; installed := installed s; led := led s;
     xvs_time := t; n_wait := n_wait s; n_now := n_now s;
     ticks := ticks s; trace := trace s |}.

(** One more answer of [event_wait], one more reading of the clock. *)
Definition waited (s : state) : state :=
  {| pc := pc s; running := running s; installed := installed s; led := led s;
     xvs_time := xvs_time s; n_wait := S (n_wait s); n_now := n_now s;
     ticks := ticks s; trace := trace s |}.

Definition sampled (s : state) : state :=
  {| pc := pc s; running := running s; installed := installed s; led := led s;
     xvs_time := xvs_time s; n_wait := n_wait s; n_now := S (n_now s);
     ticks := ticks s; trace := trace s |}.

Definition tick (s : state) : state :=
  {| pc := pc s; running := running s; installed := installed s; led := led s;
     xvs_time := xvs_time s; n_wait := n_wait s; n_now := n_now s;
     ticks := S (ticks s); trace := trace s |}.

(** A call that may throw: on success log [e] and go on at [next], else
    unwind to the handler of line 152. *)
Definition acquire (r : option string) (e : event) (next : label)
    (s : state) : state :=
  match r with
  | None => goto next (emit e s)
  | Some what => goto (L152 what) (emit (Throw what) s)
  end.

(** Delivery of SIGINT before a step: the registered handler runs.  A
    SIGINT that arrives before line 113 is not handled by this program (the
    default disposition ends the process outside of [main]); such runs are
    not described here, and [sigint] is read only once the handler is
    registered. *)
Definition deliver (s : state) : state :=
  if installed s && sigint w (ticks s)
  then set_running (signal_handler SIGINT (running s)) s
  else s.

(** One statement of [main]. *)
Definition exec (s : state) : state :=
  match pc s with
  | L89 =>
      let ret := sched_setscheduler w in
      goto L92
        (set_trace (rev (set_realtime_priority ret)
                    ++ SchedSetscheduler ret :: trace s) s)
  | L92 => acquire (chip_open w) (ChipOpen GPIO_CHIP_NAME) L96 s
  | L96 => acquire (xvs_get_line w) (GetLine XVS_PIN_LINE) L98 s
  | L98 =>
      acquire (xvs_request w)
        (Request XVS_PIN_LINE CONSUMER EVENT_RISING_EDGE 0 0) L101 s
  | L101 => goto L105 (emit (Print Cout xvs_requested) s)
  | L105 => acquire (led_get_line w) (GetLine LED_PIN_LINE) L106 s
  | L106 =>
      match led_request w with
      | None =>
          goto L109
            (set_led 0
               (emit (Request LED_PIN_LINE CONSUMER DIRECTION_OUTPUT 0 0) s))
      | Some what => goto (L152 what) (emit (Throw what) s)
      end
  | L109 => goto L113 (emit (Print Cout led_requested) s)
  | L113 =>
      goto L115 (set_installed (emit (SignalInstall SIGINT) s))
  | L115 => goto L124 (emit Banner s)
  | L124 => if running s then goto L126 s else goto L158 s
  | L126 =>
      let got := event_wait w (n_wait s) in
      goto (if got then L130 else L124)
        (waited (emit (EventWait EVENT_WAIT_MS got) s))
  | L130 => goto L133 (emit EventRead s)
  | L133 =>
      let t := now w (n_now s) in
      goto L137 (set_xvs_time t (sampled (emit (Stamp t) s)))
  | L137 =>
      let t := now w (n_now s) in
      goto (if t - xvs_time s <? TRIGGER_WAIT_NS k then L137 else L141)
        (sampled (emit (Poll t) s))
  | L141 => goto L145 (set_led 1 (emit (SetValue LED_PIN_LINE 1) s))
  | L145 => goto L148 (emit (SleepFor (FLASH_DURATION_NS k)) s)
  | L148 => goto L124 (set_led 0 (emit (SetValue LED_PIN_LINE 0) s))
  | L152 what =>
      goto (Exit 1)
        (emit (Print Cerr error_hint)
           (emit (Print Cerr ("Error: " ++ what)%string) s))
  | L158 => goto (Exit 0) (emit (Print Cout goodbye) s)
  | Exit _ => s
  end.

Definition halted (s : state) : bool :=
  match pc s with Exit _ => true | _ => false end.

(** One step of the process; a process that has returned takes none. *)
Definition step (s : state) : state :=
  if halted s then s else tick (exec (deliver s)).

Fixpoint run (n : nat) (s : state) : state :=
  match n with
  | O => s
  | S m => run m (step s)
  end.

End Program.

(** *** Reading traces *)

Definition count (p : event -> bool) (tr : list event) : nat :=
  List.length (filter p tr).

(** A processed edge: [event_wait] returned [true]. *)
Definition is_edge (e : event) : bool :=
  match e with EventWait _ got => got | _ => false end.

Definition is_set (v : Z) (e : event) : bool :=
  match e with
  | SetValue o x => (o =? LED_PIN_LINE) && (x =? v)
  | _ => false
  end.

Definition is_throw (e : event) : bool :=
  match e with Throw _ => true | _ => false end.

(** Events of the trigger loop (lines 124-150). *)
Definition is_loop_event (e : event) : bool :=
  match e with
  | EventWait _ _ | EventRead | Stamp _ | Poll _
  | SetValue _ _ | SleepFor _ => true
  | _ => false
  end.

(** The timestamp of the cycle a trace (newest first) is in. *)
Fixpoint last_stamp (tr : list event) : option Z :=
  match tr with
  | [] => None
  | Stamp t :: _ => Some t
  | _ :: rest => last_stamp rest
  end.

(** The polls of the spin loop that read clock samples [from .. from+len-1],
    oldest first. *)
Definition polls (w : world) (from len : nat) : list event :=
  map (fun i => Poll (now w i)) (seq from len).

(** The first acquisition call that throws, with its [what()]. *)
Definition acquisition_fault (w : world) : option string :=
  match chip_open w, xvs_get_line w, xvs_request w,
        led_get_line w, led_request w with
  | Some e, _, _, _, _ => Some e
  | None, Some e, _, _, _ => Some e
  | None, None, Some e, _, _ => Some e
  | None, None, None, Some e, _ => Some e
  | None, None, None, None, r => r
  end.

Definition with_sched (ret : Z) (w : world) : world :=
  {| sched_setscheduler := ret;
     chip_open := chip_open w; xvs_get_line := xvs_get_line w;
     xvs_request := xvs_request w; led_get_line := led_get_line w;
     led_request := led_request w; event_wait := event_wait w;
     now := now w; sigint := sigint w |}.

(** The level the LED line was last driven to, read from a trace. *)
Fixpoint line_level (tr : list event) : option Z :=
  match tr with
  | [] => None
  | SetValue o v :: rest =>
      if o =? LED_PIN_LINE then Some v else line_level rest
  | Request o _ DIRECTION_OUTPUT _ d :: rest =>
      if o =? LED_PIN_LINE then Some d else line_level rest
  | _ :: rest => line_level rest
  end.

(** Every rise of the LED line in [tr] comes right after a poll of the
    clock that read at least the cycle's timestamp plus the dead time. *)
Definition fired_on_time (k : constants) (tr : list event) : Prop :=
  forall post pre,
    tr = post ++ SetValue LED_PIN_LINE 1 :: pre ->
    exists t t0 pre',
      pre = Poll t :: pre' /\ last_stamp pre' = Some t0 /\
      t0 + TRIGGER_WAIT_NS k <= t.

Definition spin_inv (k : constants) (w : world) (s : state) : Prop :=
  fired_on_time k (trace s) /\
  match pc s with
  | L137 => last_stamp (trace s) = Some (xvs_time s)
  | L141 =>
      (exists t rest,
         trace s = Poll t :: rest /\ last_stamp rest = Some (xvs_time s) /\
         xvs_time s + TRIGGER_WAIT_NS k <= t) /\
      (exists i, (i < n_now s)%nat /\
                 xvs_time s + TRIGGER_WAIT_NS k <= now w i)
  | L145 | L148 =>
      exists i, (i < n_now s)%nat /\
                xvs_time s + TRIGGER_WAIT_NS k <= now w i
  | _ => True
  end.

(** Where the LED line stands at each program point. *)
Definition output_inv (s : state) : Prop :=
  led s = line_level (trace s) /\
  match pc s with
  | L145 | L148 => led s = Some 1
  | L109 | L113 | L115 | L124 | L126 | L130 | L133 | L137 | L141 | L158 =>
      led s = Some 0
  | L89 | L92 | L96 | L98 | L101 | L105 | L106 => led s = None
  | Exit 0 => led s = Some 0
  | L152 _ | Exit _ => led s <> Some 1
  end.

(** Where the handler is registered, and what [running] can be there. *)
Definition install_inv (s : state) : Prop :=
  match pc s with
  | L89 | L92 | L96 | L98 | L101 | L105 | L106 | L109 | L113 | L152 _ =>
      installed s = false /\ running s = true
  | L158 => installed s = true /\ running s = false
  | Exit st =>
      (st = 1 /\ installed s = false /\ running s = true) \/
      (st = 0 /\ installed s = true /\ running s = false)
  | _ => installed s = true
  end.

(** Two states past line 89 that agree on everything but the oldest part
    of their traces, which is [a] in one and [b] in the other. *)
Definition same_but_log (a b : list event) (s s' : state) : Prop :=
  pc s = pc s' /\ pc s <> L89 /\
  running s = running s' /\ installed s = installed s' /\
  led s = led s' /\ xvs_time s = xvs_time s' /\
  n_wait s = n_wait s' /\ n_now s = n_now s' /\ ticks s = ticks s' /\
  exists tl, trace s = tl ++ a /\ trace s' = tl ++ b.

(** What line 89 leaves in the trace (newest first). *)
Definition sched_log (ret : Z) : list event :=
  rev (set_realtime_priority ret) ++ [SchedSetscheduler ret].


(** Edges, rises and falls counted in the trace, at each program point. *)
Definition balance_inv (s : state) : Prop :=
  let e := count is_edge (trace s) in
  let h := count (is_set 1) (trace s) in
  let l := count (is_set 0) (trace s) in
  match pc s with
  | L130 | L133 | L137 | L141 => e = S h /\ h = l
  | L145 | L148 => e = h /\ h = S l
  | _ => e = h /\ h = l
  end.


End Controller.

(* ===================================================================== *)
(** ** A build and its runs                                                *)
(* ===================================================================== *)

Module Build.
Import Timing Controller.

(** The state of the process made from literals [l] after [n] steps in
    world [w]; there is no process when the unit is rejected. *)
Definition execution (l : literals) (w : world) (n : nat) : option state :=
  match translate l with
  | Translated k => Some (run k w n init)
  | Rejected _ => None
  end.

(** The constants of the repository, as line 38-63 evaluate them. *)
Definition repo_constants : constants :=
  {| T1_VERTICAL_BLANKING_NS := 284200;
     T2_ROLL_UP_TIME_NS := 10579100;
     TOTAL_EXPOSURE_TIME_NS := 15000000;
     T3_MAGIC_WINDOW_NS := 15000000 - 10579100;
     FLASH_DURATION_NS := 50000;
     TRIGGER_WAIT_NS := 284200 + 10579100 |}.

(** Literals with T-exp = 10.6 ms: the window is 20.9 us, shorter than
    the 50 us flash. *)
Definition short_exposure : literals :=
  {| lit_T1 := 284200; lit_T2 := 10579100;
     lit_TEXP := 10600000; lit_FT := 50000 |}.

(** A world in which the request of the XVS line throws. *)
Definition busy_world : world :=
  {| sched_setscheduler := 0;
     chip_open := None; xvs_get_line := None;
     xvs_request := Some "Device or resource busy";
     led_get_line := None; led_request := None;
     event_wait := fun _ => true;
     now := fun _ => 0;
     sigint := fun _ => false |}.

(** Sample worlds used to exercise the statements: every call succeeds,
    an edge is always pending, the clock advances 4 ms per sample, and
    SIGINT arrives before step [at]. *)
Definition sample_world (at_step : nat) : world :=
  {| sched_setscheduler := 0;
     chip_open := None; xvs_get_line := None; xvs_request := None;
     led_get_line := None; led_request := None;
     event_wait := fun _ => true;
     now := fun i => 4000000 * Z.of_nat i;
     sigint := fun n => Nat.eqb n at_step |}.

End Build.

(* ===================================================================== *)
(** ** The shape of a run                                                  *)
(* ===================================================================== *)

Module Shape.
Import Timing Controller.

(** Whether the call [e] of the trigger loop may come directly after
    [prev], the call made just before it ([None]: nothing yet).  Read off
    lines 124-150: a wait follows the banner, a wait that ran out, or the
    fall of the LED; the drain follows a wait that saw an edge; the
    timestamp follows the drain; a poll follows the timestamp or a poll;
    the rise follows a poll; the sleep, of FLASH_DURATION_NS, follows the
    rise; the fall follows the sleep.  Calls outside the loop are not
    constrained. *)
Definition follows (k : constants) (e : event) (prev : option event) : bool :=
  match e with
  | EventWait ms _ =>
      (ms =? EVENT_WAIT_MS) &&
      match prev with
      | Some Banner => true
      | Some (EventWait _ got) => negb got
      | Some (SetValue o v) => (o =? LED_PIN_LINE) && (v =? 0)
      | _ => false
      end
  | EventRead =>
      match prev with Some (EventWait _ got) => got | _ => false end
  | Stamp _ =>
      match prev with Some EventRead => true | _ => false end
  | Poll _ =>
      match prev with Some (Stamp _) | Some (Poll _) => true | _ => false end
  | SetValue o v =>
      (o =? LED_PIN_LINE) &&
      match prev with
      | Some (Poll _) => v =? 1
      | Some (SleepFor ns) => (v =? 0) && (ns =? FLASH_DURATION_NS k)
      | _ => false
      end
  | SleepFor ns =>
      (ns =? FLASH_DURATION_NS k) &&
      match prev with
      | Some (SetValue o v) => (o =? LED_PIN_LINE) && (v =? 1)
      | _ => false
      end
  | _ => true
  end.

(** Every call of a trace (newest first) follows the one before it. *)
Fixpoint well_chained (k : constants) (tr : list event) : bool :=
  match tr with
  | [] => true
  | e :: pre => follows k e (hd_error pre) && well_chained k pre
  end.

(** The call a program point of the loop makes next may follow the newest
    call of the trace. *)
Definition head_ok (k : constants) (s : state) : bool :=
  let prev := hd_error (trace s) in
  match pc s with
  | L124 | L126 => follows k (EventWait EVENT_WAIT_MS false) prev
  | L130 => follows k EventRead prev
  | L133 => follows k (Stamp 0) prev
  | L137 => follows k (Poll 0) prev
  | L141 => follows k (SetValue LED_PIN_LINE 1) prev
  | L145 => follows k (SleepFor (FLASH_DURATION_NS k)) prev
  | L148 => follows k (SetValue LED_PIN_LINE 0) prev
  | _ => true
  end.

Definition chain_inv (k : constants) (s : state) : Prop :=
  well_chained k (trace s) = true /\ head_ok k s = true.

(** Which acquisition calls have succeeded when a program point is
    reached, and why the process has returned when it has. *)
Definition acquired_inv (w : world) (s : state) : Prop :=
  match pc s with
  | L89 | L92 => True
  | L96 => chip_open w = None
  | L98 => chip_open w = None /\ xvs_get_line w = None
  | L101 | L105 =>
      chip_open w = None /\ xvs_get_line w = None /\ xvs_request w = None
  | L106 =>
      chip_open w = None /\ xvs_get_line w = None /\ xvs_request w = None /\
      led_get_line w = None
  | L152 what => acquisition_fault w = Some what
  | Exit st =>
      (st = 0 /\ acquisition_fault w = None) \/
      (st = 1 /\ exists what, acquisition_fault w = Some what)
  | _ => acquisition_fault w = None
  end.

(** [running] is [false] only if a SIGINT has been delivered at a step
    already taken. *)
Definition signalled_inv (w : world) (s : state) : Prop :=
  running s = false ->
  exists t, (t < ticks s)%nat /\ sigint w t = true.

(** A process that is neither returning nor cancelled. *)
Definition alive (s : state) : Prop :=
  running s = true /\ halted s = false /\ pc s <> L158 /\
  forall what, pc s <> L152 what.

(** What a successful start-up (lines 92-122) leaves in the trace on top
    of the output of line 89, newest first. *)
Definition startup_log : list event :=
  [ Banner; SignalInstall SIGINT;
    Print Cout led_requested;
    Request LED_PIN_LINE CONSUMER DIRECTION_OUTPUT 0 0;
    GetLine LED_PIN_LINE;
    Print Cout xvs_requested;
    Request XVS_PIN_LINE CONSUMER EVENT_RISING_EDGE 0 0;
    GetLine XVS_PIN_LINE;
    ChipOpen GPIO_CHIP_NAME ].

(** A world without edges and without signals. *)
Definition idle_world : world :=
  {| sched_setscheduler := 0;
     chip_open := None; xvs_get_line := None; xvs_request := None;
     led_get_line := None; led_request := None;
     event_wait := fun _ => false;
     now := fun i => 4000000 * Z.of_nat i;
     sigint := fun _ => false |}.

(** A world whose clock stands still, with an edge pending and SIGINT
    sent again and again from step 12 on. *)
Definition frozen_world : world :=
  {| sched_setscheduler := 0;
     chip_open := None; xvs_get_line := None; xvs_request := None;
     led_get_line := None; led_request := None;
     event_wait := fun _ => true;
     now := fun _ => 0;
     sigint := fun n => Nat.leb 12 n |}.

End Shape.

(* ===================================================================== *)
(** ** Facts about the timing constants                                    *)
(* ===================================================================== *)

Module TimingFacts.
Import Timing Controller Build.

Lemma in_ll_iff z : in_ll z = true <-> LLONG_MIN <= z <= LLONG_MAX.
Proof.
  unfold in_ll. rewrite andb_true_iff, !Z.leb_le. tauto.
Qed.

Lemma constexpr_ok name v rest :
  in_ll v = true -> constexpr name v rest = rest v.
Proof. unfold constexpr. now intros ->. Qed.

(** A unit is translated only through every check of [translate]; the
    constants it then holds are read off here. *)
Lemma translate_inv l k :
  translate l = Translated k ->
  all_in_ll l /\
  in_ll (lit_TEXP l - lit_T2 l) = true /\
  in_ll (lit_T1 l + lit_T2 l) = true /\
  lit_FT l < lit_TEXP l - lit_T2 l /\
  k = Constants (lit_T1 l) (lit_T2 l) (lit_TEXP l)
        (lit_TEXP l - lit_T2 l) (lit_FT l) (lit_T1 l + lit_T2 l).
Proof.
  unfold translate, constexpr, static_assert, all_in_ll.
  destruct (in_ll (lit_T1 l)); [|discriminate].
  destruct (in_ll (lit_T2 l)); [|discriminate].
  destruct (in_ll (lit_TEXP l)); [|discriminate].
  destruct (in_ll (lit_TEXP l - lit_T2 l)); [|discriminate].
  destruct (in_ll (lit_FT l)); [|discriminate].
  destruct (lit_FT l <? lit_TEXP l - lit_T2 l) eqn:Hlt; [|discriminate].
  destruct (in_ll (lit_T1 l + lit_T2 l)); [|discriminate].
  intros [= <-]. apply Z.ltb_lt in Hlt. repeat split; auto.
Qed.

Lemma translate_ok l :
  all_in_ll l ->
  in_ll (lit_TEXP l - lit_T2 l) = true ->
  in_ll (lit_T1 l + lit_T2 l) = true ->
  lit_FT l < lit_TEXP l - lit_T2 l ->
  translate l =
  Translated (Constants (lit_T1 l) (lit_T2 l) (lit_TEXP l)
                (lit_TEXP l - lit_T2 l) (lit_FT l) (lit_T1 l + lit_T2 l)).
Proof.
  intros (H1 & H2 & H3 & H4) Hw Ht Hlt. unfold translate.
  rewrite !constexpr_ok by assumption.
  unfold static_assert. apply Z.ltb_lt in Hlt. now rewrite Hlt.
Qed.

Lemma translate_too_long l :
  lit_FT l >= lit_TEXP l - lit_T2 l -> exists d, translate l = Rejected d.
Proof.
  intros Hge. destruct (translate l) as [d|k] eqn:E; [now exists d|].
  apply translate_inv in E. lia.
Qed.

(** C1. When the flash duration is not shorter than the window
    (FT >= T-exp - T2) the unit is rejected, so no process exists and no
    run opens a hardware line; with representable constants the rejection
    is the static assertion of line 58 with its message.  When FT is
    shorter than the window, that assertion does not fire. *)
Theorem static_assert_guards_window (l : literals) :
  (lit_FT l >= lit_TEXP l - lit_T2 l ->
     (exists d, translate l = Rejected d) /\
     (forall w n, execution l w n = None) /\
     (all_in_ll l -> in_ll (lit_TEXP l - lit_T2 l) = true ->
      translate l = Rejected (StaticAssert static_assert_message))) /\
  (lit_FT l < lit_TEXP l - lit_T2 l ->
     (forall msg, translate l <> Rejected (StaticAssert msg)) /\
     (all_in_ll l -> in_ll (lit_TEXP l - lit_T2 l) = true ->
      in_ll (lit_T1 l + lit_T2 l) = true ->
      exists k, translate l = Translated k /\
                forall w n, execution l w n = Some (run k w n init))).
Proof.
  split; intros Hcmp.
  - destruct (translate_too_long l Hcmp) as [d Hd]. split; [now exists d|].
    split.
    + intros w n. unfold execution. now rewrite Hd.
    + intros (H1 & H2 & H3 & H4) Hw. unfold translate.
      rewrite !constexpr_ok by assumption. unfold static_assert.
      assert ((lit_FT l <? lit_TEXP l - lit_T2 l) = false) as ->
        by (apply Z.ltb_ge; lia).
      reflexivity.
  - split.
    + intros msg. unfold translate, constexpr, static_assert.
      repeat match goal with
             | |- context [if in_ll ?v then _ else _] =>
                 destruct (in_ll v); [|discriminate]
             end.
      apply Z.ltb_lt in Hcmp. rewrite Hcmp.
      destruct (in_ll (lit_T1 l + lit_T2 l)); discriminate.
    + intros Hl Hw Ht. eexists. split.
      * apply translate_ok; assumption.
      * intros w n. unfold execution. now rewrite translate_ok.
Qed.

Lemma static_assert_guards_window_witness :
  translate short_exposure = Rejected (StaticAssert static_assert_message) /\
  (forall w n, execution short_exposure w n = None) /\
  (forall msg, translate imx415 <> Rejected (StaticAssert msg)).
Proof.
  pose proof (static_assert_guards_window short_exposure) as [Hbad _].
  pose proof (static_assert_guards_window imx415) as [_ Hgood].
  assert (Hge : lit_FT short_exposure >=
                lit_TEXP short_exposure - lit_T2 short_exposure)
    by (vm_compute; discriminate).
  assert (Hlt : lit_FT imx415 < lit_TEXP imx415 - lit_T2 imx415)
    by reflexivity.
  destruct (Hbad Hge) as (_ & Hnone & Hmsg).
  destruct (Hgood Hlt) as (Hno & _).
  split; [|split]; [|exact Hnone|exact Hno].
  apply Hmsg; [repeat split; reflexivity | reflexivity].
Defined.

(** C4. For literals that fit [long long] and leave a window longer than
    the flash, the unit is translated and its constants are exactly
    T3 = T-exp - T2 and TRIGGER_WAIT = T1 + T2; and every translated unit,
    whatever its literals, has these two values. *)
Theorem derived_constants_exact (l : literals) :
  (all_in_ll l ->
   in_ll (lit_TEXP l - lit_T2 l) = true ->
   in_ll (lit_T1 l + lit_T2 l) = true ->
   lit_FT l < lit_TEXP l - lit_T2 l ->
   exists k, translate l = Translated k /\
     T3_MAGIC_WINDOW_NS k = lit_TEXP l - lit_T2 l /\
     TRIGGER_WAIT_NS k = lit_T1 l + lit_T2 l) /\
  (forall k, translate l = Translated k ->
     T3_MAGIC_WINDOW_NS k = TOTAL_EXPOSURE_TIME_NS k - T2_ROLL_UP_TIME_NS k /\
     TRIGGER_WAIT_NS k = T1_VERTICAL_BLANKING_NS k + T2_ROLL_UP_TIME_NS k /\
     FLASH_DURATION_NS k < T3_MAGIC_WINDOW_NS k /\
     T1_VERTICAL_BLANKING_NS k = lit_T1 l /\
     T2_ROLL_UP_TIME_NS k = lit_T2 l /\
     TOTAL_EXPOSURE_TIME_NS k = lit_TEXP l /\
     FLASH_DURATION_NS k = lit_FT l).
Proof.
  split.
  - intros Hl Hw Ht Hlt. eexists. split; [now apply translate_ok|].
    split; reflexivity.
  - intros k Hk. apply translate_inv in Hk.
    destruct Hk as (_ & _ & _ & Hlt & ->). cbn. repeat split; auto.
Qed.

Lemma derived_constants_exact_witness :
  exists k, translate imx415 = Translated k /\
    T3_MAGIC_WINDOW_NS k = 15000000 - 10579100 /\
    TRIGGER_WAIT_NS k = 284200 + 10579100.
Proof.
  apply (proj1 (derived_constants_exact imx415)).
  - repeat split; reflexivity.
  - reflexivity.
  - reflexivity.
  - reflexivity.
Defined.

(** C5. With T1 = 284200, T2 = 10579100, T-exp = 15000000 and FT = 50000
    the unit is translated, T3 = 4420900, TRIGGER_WAIT = 10863300, and the
    assertion holds because 50000 < 4420900. *)
Theorem imx415_constants :
  translate (Literals 284200 10579100 15000000 50000) =
    Translated (Constants 284200 10579100 15000000 4420900 50000 10863300) /\
  translate imx415 = Translated repo_constants /\
  T3_MAGIC_WINDOW_NS repo_constants = 4420900 /\
  TRIGGER_WAIT_NS repo_constants = 10863300 /\
  (FLASH_DURATION_NS repo_constants <? T3_MAGIC_WINDOW_NS repo_constants)
    = true /\
  50000 < 4420900.
Proof. repeat split. Qed.

End TimingFacts.

(* ===================================================================== *)
(** ** Facts about the controller                                          *)
(* ===================================================================== *)

Module ControllerFacts.
Import Timing Controller Build.

(** Case analysis on every [option] and [bool] the goal branches on. *)
Ltac split_branches :=
  repeat match goal with
         | |- context [match ?o with Some _ => _ | None => _ end] =>
             destruct o eqn:?; cbn in *
         | |- context [if ?c then _ else _] => destruct c eqn:?; cbn in *
         end.

Section Run.

Variable k : constants.
Variable w : world.

(** *** Stepping *)

Lemma run_add a b s : run k w (a + b) s = run k w b (run k w a s).
Proof.
  revert s. induction a as [|a IH]; intros s; cbn; [reflexivity|apply IH].
Qed.

Lemma run_S_last n s : run k w (S n) s = step k w (run k w n s).
Proof.
  replace (S n) with (n + 1)%nat by lia. now rewrite run_add.
Qed.

Lemma step_halted s : halted s = true -> step k w s = s.
Proof. unfold Controller.step. now intros ->. Qed.

Lemma run_halted n s : halted s = true -> run k w n s = s.
Proof.
  intros H. induction n as [|n IH]; cbn; [reflexivity|].
  now rewrite step_halted.
Qed.

(** An invariant of [step] that holds at the start holds along the run. *)
Lemma run_invariant (P : state -> Prop) :
  (forall s, P s -> P (step k w s)) ->
  forall n s, P s -> P (run k w n s).
Proof.
  intros Hstep n. induction n as [|n IH]; intros s Hs; cbn; auto.
Qed.

(** Delivery touches nothing but [running]. *)
Lemma deliver_eq s : deliver w s = set_running (running (deliver w s)) s.
Proof.
  unfold Controller.deliver.
  destruct (installed s && sigint w (ticks s)); destruct s; reflexivity.
Qed.

Lemma deliver_cancelled s : running s = false -> deliver w s = s.
Proof.
  intros H. unfold Controller.deliver.
  destruct (installed s && sigint w (ticks s)); [|reflexivity].
  destruct s; cbn in *; subst. reflexivity.
Qed.

Lemma deliver_running s :
  running (deliver w s) = running s \/
  (running (deliver w s) = false /\ installed s = true /\
   sigint w (ticks s) = true).
Proof.
  unfold Controller.deliver.
  destruct (installed s) eqn:Hi, (sigint w (ticks s)) eqn:Hs; cbn; auto.
Qed.

Lemma exec_running s : running (exec k w s) = running s.
Proof.
  unfold Controller.exec, acquire.
  destruct (pc s); cbn; try reflexivity;
    repeat match goal with
           | |- context [match ?o with Some _ => _ | None => _ end] =>
               destruct o
           | |- context [if ?c then _ else _] => destruct c eqn:?
           end; cbn; congruence.
Qed.

Lemma step_running s :
  running (step k w s) = running s \/
  (running (step k w s) = false /\ installed s = true /\
   sigint w (ticks s) = true).
Proof.
  unfold Controller.step. destruct (halted s); [now left|].
  cbn. rewrite exec_running. apply deliver_running.
Qed.

Lemma step_keeps_cancelled s : running s = false -> running (step k w s) = false.
Proof.
  intros H. destruct (step_running s) as [E|[E _]]; congruence.
Qed.

Lemma run_keeps_cancelled n s : running s = false -> running (run k w n s) = false.
Proof.
  apply (run_invariant (fun s => running s = false)), step_keeps_cancelled.
Qed.

(** *** Invariants of a step *)

Lemma fired_nil : fired_on_time k [].
Proof. intros [|e post] pre H; discriminate H. Qed.

Lemma fired_cons_other e tr :
  e <> SetValue LED_PIN_LINE 1 ->
  fired_on_time k tr -> fired_on_time k (e :: tr).
Proof.
  intros Hne Htr [|e' post] pre H; cbn in H.
  - congruence.
  - injection H as _ H. eapply Htr, H.
Qed.

Lemma fired_cons_rise t rest :
  fired_on_time k (Poll t :: rest) ->
  (exists t0, last_stamp rest = Some t0 /\ t0 + TRIGGER_WAIT_NS k <= t) ->
  fired_on_time k (SetValue LED_PIN_LINE 1 :: Poll t :: rest).
Proof.
  intros Htr (t0 & Hs & Hle) [|e' post] pre H; cbn in H.
  - injection H as <-. now exists t, t0, rest.
  - injection H as _ H. eapply Htr, H.
Qed.

(** Unfolds one step of a state given field by field; what delivery
    leaves in [running] is kept as a variable. *)
Ltac unfold_step s r' :=
  destruct (halted s) eqn:?; [rewrite step_halted by assumption|];
  [|unfold Controller.step;
    match goal with H : halted s = false |- _ => rewrite H end;
    rewrite (deliver_eq s);
  generalize (running (deliver w s)); intros r';
    destruct s as [p r i l x nw nn tk tr];
    cbn in *; destruct p; try discriminate;
    cbn in *; unfold acquire, set_realtime_priority; cbn in *].

Lemma step_output_inv s : output_inv s -> output_inv (step k w s).
Proof.
  unfold output_inv. intros [Hl Hp]. unfold_step s r'; [now split|..];
    split_branches; try (split; congruence).
Qed.

Lemma step_balance_inv s : balance_inv s -> balance_inv (step k w s).
Proof.
  unfold balance_inv, count. intros H. unfold_step s r'; [assumption|..];
    split_branches; cbn in *; try lia.
Qed.

Lemma step_spin_inv s : spin_inv k w s -> spin_inv k w (step k w s).
Proof.
  unfold spin_inv. intros [Hf Hp]. unfold_step s r'; [now split|..];
    split_branches;
    repeat match goal with
           | |- _ /\ _ => split
           | |- True => exact I
           | |- fired_on_time _ (SetValue _ 1 :: _) => idtac
           | |- fired_on_time _ (_ :: _) =>
               apply fired_cons_other; [discriminate|]
           | |- fired_on_time _ _ => assumption
           end; auto.
  - (* L137, the loop is left *)
    exists (now w nn), tr. repeat split; auto.
    match goal with H : (_ <? _) = false |- _ => apply Z.ltb_ge in H end.
    lia.
  - exists nn. split; [lia|].
    match goal with H : (_ <? _) = false |- _ => apply Z.ltb_ge in H end.
    lia.
  - (* L141 *)
    destruct Hp as ((t & rest & -> & Hs & Hle) & _).
    apply fired_cons_rise; [assumption|]. now exists x.
  - tauto.
Qed.

Lemma step_install_inv s : install_inv s -> install_inv (step k w s).
Proof.
  unfold install_inv. intros H.
  destruct (halted s) eqn:Hh; [now rewrite step_halted|].
  unfold Controller.step. rewrite Hh.
  destruct (deliver_running s) as [Hr|(Hr & Hi & _)];
    rewrite (deliver_eq s), Hr;
    destruct s as [p r i l x nw nn tk tr];
    cbn in *; destruct p; try discriminate;
    cbn in *; unfold acquire; cbn in *; split_branches;
    intuition congruence.
Qed.

(** *** One step from a state given field by field *)

Lemma step_shape s :
  halted s = false ->
  exists r', step k w s = tick (exec k w (set_running r' s)) /\
             (running s = false -> r' = false).
Proof.
  intros Hh. exists (running (deliver w s)). split.
  - unfold Controller.step. now rewrite Hh, <- deliver_eq.
  - intros Hr. now rewrite deliver_cancelled.
Qed.


Ltac reduce_state :=
  cbv beta iota zeta delta
    [Controller.exec tick set_running goto emit set_led acquire
     set_trace set_installed set_xvs_time waited sampled
     pc running installed led xvs_time n_wait n_now ticks trace].

(** Rewrites the innermost [step] of the goal, taken from an explicit
    state, into the state it yields. *)
Ltac step_once :=
  match goal with
  | |- context [Controller.step k w (State ?p ?r ?i ?l ?x ?a ?b ?c ?d)] =>
      let r' := fresh "r" in
      let E := fresh "E" in
      destruct (step_shape (State p r i l x a b c d) eq_refl)
        as (r' & E & _);
      rewrite E; clear E; reduce_state
  end.

Lemma polls_S from len :
  polls w from (S len) = Poll (now w from) :: polls w (S from) len.
Proof. reflexivity. Qed.

Lemma rev_polls_S from len tr :
  rev (polls w from (S len)) ++ tr =
  rev (polls w (S from) len) ++ Poll (now w from) :: tr.
Proof. rewrite polls_S. cbn [rev]. now rewrite <- app_assoc. Qed.

(** The spin loop of line 137: [j] polls read too early, the next one
    does not; the loop is left after exactly [j + 1] polls. *)
Lemma spin_run j : forall r i l x nw nn tk tr,
  (forall m, (m < j)%nat -> now w (m + nn) - x < TRIGGER_WAIT_NS k) ->
  TRIGGER_WAIT_NS k <= now w (j + nn) - x ->
  exists r',
    run k w (S j) (State L137 r i l x nw nn tk tr) =
    State L141 r' i l x nw (S j + nn) (S j + tk)
      (rev (polls w nn (S j)) ++ tr).
Proof.
  induction j as [|j IH]; intros r i l x nw nn tk tr Hearly Hdone.
  - cbn [Controller.run]. step_once.
    apply Z.ltb_ge in Hdone. cbn [Nat.add] in Hdone. rewrite Hdone.
    eexists. reflexivity.
  - change (run k w (S (S j)) ?s) with (run k w (S j) (step k w s)).
    step_once.
    assert (Hfirst : (now w nn - x <? TRIGGER_WAIT_NS k) = true).
    { apply Z.ltb_lt. apply (Hearly 0%nat). lia. }
    rewrite Hfirst. reduce_state.
    destruct (IH r0 i l x nw (S nn) (S tk) (Poll (now w nn) :: tr))
      as [r' Hrun].
    + intros m Hm. replace (m + S nn)%nat with (S m + nn)%nat by lia.
      apply Hearly. lia.
    + now replace (j + S nn)%nat with (S j + nn)%nat by lia.
    + exists r'. rewrite Hrun, (rev_polls_S nn (S j) tr).
      f_equal; lia.
Qed.

(** A whole cycle, from the edge wait to the loop head: wait, drain,
    timestamp, spin, rise, hold, fall. *)
Lemma cycle_run j : forall r i l x nw nn tk tr,
  event_wait w nw = true ->
  (forall m, (m < j)%nat ->
     now w (m + S nn) - now w nn < TRIGGER_WAIT_NS k) ->
  TRIGGER_WAIT_NS k <= now w (j + S nn) - now w nn ->
  exists r',
    run k w (j + 7) (State L126 r i l x nw nn tk tr) =
    State L124 r' i (Some 0) (now w nn) (S nw) (S j + S nn) (j + 7 + tk)
      (SetValue LED_PIN_LINE 0 :: SleepFor (FLASH_DURATION_NS k)
       :: SetValue LED_PIN_LINE 1
       :: rev (polls w (S nn) (S j))
       ++ Stamp (now w nn) :: EventRead
       :: EventWait EVENT_WAIT_MS true :: tr).
Proof.
  intros r i l x nw nn tk tr Hedge Hearly Hdone.
  replace (j + 7)%nat with (3 + (S j + 3))%nat by lia.
  rewrite run_add.
  change (run k w 3 ?s) with (step k w (step k w (step k w s))).
  step_once. rewrite Hedge. reduce_state. step_once. step_once.
  rewrite run_add.
  destruct (spin_run j r2 i l (now w nn) (S nw) (S nn) (S (S (S tk)))
              (Stamp (now w nn) :: EventRead
               :: EventWait EVENT_WAIT_MS true :: tr) Hearly Hdone)
    as [r3 Hspin].
  rewrite Hspin.
  change (run k w 3 ?s) with (step k w (step k w (step k w s))).
  step_once. step_once. step_once.
  eexists. f_equal. lia.
Qed.

(** *** Winding down once cancellation has been requested *)
















End Run.

Lemma reachable_invariants k w n :
  let s := run k w n init in
  spin_inv k w s /\ output_inv s /\ balance_inv s /\ install_inv s.
Proof.
  apply (run_invariant k w
           (fun s => spin_inv k w s /\ output_inv s /\
                     balance_inv s /\ install_inv s)).
  - intros s (H1 & H2 & H3 & H4).
    auto using step_spin_inv, step_output_inv, step_balance_inv,
               step_install_inv.
  - repeat split; try reflexivity. cbn. apply fired_nil.
Qed.

Lemma led_high_pc s :
  output_inv s -> led s = Some 1 -> pc s = L145 \/ pc s = L148.
Proof.
  unfold output_inv. intros [_ H] Hl.
  destruct (pc s) as [| | | | | | | | | | | | | | | | | | | |st]; auto;
    try congruence.
  destruct st; congruence.
Qed.



(** C3. A cycle that starts with [event_wait] returning [true] performs,
    in this order and nothing else: the wait, the drain, the timestamp,
    the polls of the spin loop, the rise, a sleep of FLASH_DURATION_NS,
    the fall; it ends at the loop head with the LED low.  In every run
    falls <= rises <= edges <= falls + 1, and at the loop head the three
    counts are equal. *)
Theorem one_pulse_per_edge :
  (forall k w s j,
     pc s = L126 -> event_wait w (n_wait s) = true ->
     (forall m, (m < j)%nat ->
        now w (m + S (n_now s)) - now w (n_now s) < TRIGGER_WAIT_NS k) ->
     TRIGGER_WAIT_NS k <= now w (j + S (n_now s)) - now w (n_now s) ->
     let s' := run k w (j + 7) s in
     pc s' = L124 /\ led s' = Some 0 /\
     trace s' =
       SetValue LED_PIN_LINE 0 :: SleepFor (FLASH_DURATION_NS k)
       :: SetValue LED_PIN_LINE 1
       :: rev (polls w (S (n_now s)) (S j))
       ++ Stamp (now w (n_now s)) :: EventRead
       :: EventWait EVENT_WAIT_MS true :: trace s) /\
  (forall k w n,
     let s := run k w n init in
     let edges := count is_edge (trace s) in
     let rises := count (is_set 1) (trace s) in
     let falls := count (is_set 0) (trace s) in
     (falls <= rises <= edges)%nat /\ (edges <= falls + 1)%nat /\
     (pc s = L124 -> edges = rises /\ rises = falls)).
Proof.
  split.
  - intros k w s j Hpc Hedge Hearly Hdone.
    destruct s as [p r i l x nw nn tk tr]. cbn in *. subst p.
    destruct (cycle_run k w j r i l x nw nn tk tr Hedge Hearly Hdone)
      as [r' E].
    rewrite E. cbn. auto.
  - intros k w n s.
    destruct (reachable_invariants k w n) as (_ & _ & Hbal & _).
    fold s in Hbal. unfold balance_inv in Hbal. cbn zeta in *.
    destruct (pc s); destruct Hbal as [H1 H2];
      (split; [lia|split; [lia|intros Hp; try discriminate Hp; lia]]).
Qed.

Lemma one_pulse_per_edge_witness :
  let s := run repo_constants (sample_world 100) 11 init in
  let s' := run repo_constants (sample_world 100) (2 + 7) s in
  pc s' = L124 /\ led s' = Some 0 /\
  trace s' =
    SetValue LED_PIN_LINE 0 :: SleepFor 50000 :: SetValue LED_PIN_LINE 1
    :: Poll 12000000 :: Poll 8000000 :: Poll 4000000
    :: Stamp 0 :: EventRead :: EventWait EVENT_WAIT_MS true :: trace s.
Proof.
  destruct one_pulse_per_edge as [Hcycle _].
  apply (Hcycle repo_constants (sample_world 100)
           (run repo_constants (sample_world 100) 11 init) 2%nat).
  - reflexivity.
  - reflexivity.
  - intros m Hm. destruct m as [|[|m]]; [reflexivity|reflexivity|lia].
  - vm_compute. discriminate.
Defined.

(** C10. A successful request of the LED line (line 106) asks for level
    0; in every run the level of the line is the one last driven, it is 0
    at the loop head and at the edge wait, and it is 1 only between the
    [set_value(1)] of line 141 and the [set_value(0)] of line 148. *)
Theorem led_low_outside_pulse :
  (forall k w s, pc s = L106 -> led_request w = None ->
     pc (step k w s) = L109 /\ led (step k w s) = Some 0 /\
     trace (step k w s) =
       Request LED_PIN_LINE CONSUMER DIRECTION_OUTPUT 0 0 :: trace s) /\
  (forall k w n,
     let s := run k w n init in
     led s = line_level (trace s) /\
     (pc s = L124 \/ pc s = L126 -> led s = Some 0) /\
     (led s = Some 1 -> pc s = L145 \/ pc s = L148) /\
     (pc s = L145 \/ pc s = L148 -> led s = Some 1)).
Proof.
  split.
  - intros k w s Hpc Hreq.
    destruct (step_shape k w s) as (r' & E & _).
    { unfold halted. now rewrite Hpc. }
    rewrite E. destruct s as [p r i l x nw nn tk tr]. cbn in Hpc. subst p.
    cbn. rewrite Hreq. cbn. auto.
  - intros k w n s.
    destruct (reachable_invariants k w n) as (_ & Hout & _).
    fold s in Hout. split; [apply Hout|]. split; [|split].
    + destruct Hout as [_ H]. intros [E|E]; rewrite E in H; exact H.
    + now apply led_high_pc.
    + destruct Hout as [_ H]. intros [E|E]; rewrite E in H; exact H.
Qed.

Lemma led_low_outside_pulse_witness :
  led (run repo_constants (sample_world 100) 21 init) = Some 0 /\
  led (run repo_constants (sample_world 100) 18 init) = Some 1 /\
  pc (run repo_constants (sample_world 100) 18 init) = L145.
Proof.
  destruct led_low_outside_pulse as [_ Hrun].
  destruct (Hrun repo_constants (sample_world 100) 21%nat)
    as (_ & Hlow & _).
  destruct (Hrun repo_constants (sample_world 100) 18%nat)
    as (_ & _ & _ & Hhigh).
  split; [apply Hlow; right; reflexivity|].
  split; [apply Hhigh; left; reflexivity|reflexivity].
Defined.




Lemma step_same_but_log k w r a b s s' :
  same_but_log a b s s' ->
  same_but_log a b (step k w s) (step k (with_sched r w) s').
Proof.
  intros (Hpc & Hne & Hr & Hi & Hl & Hx & Hnw & Hnn & Htk & tl & Ht & Ht').
  destruct s as [p rn i l x nw nn tk tr], s' as [p' rn' i' l' x' nw' nn' tk' tr'].
  cbn in *. subst.
  unfold same_but_log, Controller.step, halted, Controller.deliver.
  cbn [pc installed ticks running sigint with_sched].
  destruct p'; try congruence;
    destruct (i' && sigint w tk');
    cbn; unfold acquire; cbn; split_branches;
    repeat (split; [first [reflexivity | discriminate]|]);
    first [ now exists tl
          | now eexists (_ :: tl)
          | now eexists (_ :: _ :: tl) ].
Qed.

Lemma run_same_but_log k w r a b n : forall s s',
  same_but_log a b s s' ->
  same_but_log a b (run k w n s) (run k (with_sched r w) n s').
Proof.
  induction n as [|n IH]; intros s s' H; cbn; [assumption|].
  apply IH. now apply step_same_but_log.
Qed.

(** C9. When [sched_setscheduler] fails (returns -1),
    [set_realtime_priority] prints its two warning lines and returns:
    [main] goes on at line 92.  From there on the run is, step for step,
    the run of the same world in which the call returned [r] instead: same
    program point, same flag, same LED level, same clock and edge
    samples, same events after those of line 89. *)
Theorem realtime_failure_not_fatal (k : constants) (w : world) :
  sched_setscheduler w = -1 ->
  set_realtime_priority (sched_setscheduler w) =
    [Print Cerr warning_1; Print Cerr warning_2] /\
  pc (step k w init) = L92 /\
  trace (step k w init) =
    [Print Cerr warning_2; Print Cerr warning_1; SchedSetscheduler (-1)] /\
  (forall r n,
     let s := run k w (S n) init in
     let s' := run k (with_sched r w) (S n) init in
     pc s = pc s' /\ running s = running s' /\
     installed s = installed s' /\ led s = led s' /\
     xvs_time s = xvs_time s' /\ n_wait s = n_wait s' /\
     n_now s = n_now s' /\ ticks s = ticks s' /\
     exists tl,
       trace s = tl ++ sched_log (-1) /\ trace s' = tl ++ sched_log r).
Proof.
  intros Hfail. rewrite Hfail. split; [reflexivity|].
  assert (Hstep : step k w init =
                  State L92 true false None 0 0 0 1 (sched_log (-1))).
  { unfold Controller.step, sched_log. cbn. now rewrite Hfail. }
  rewrite Hstep. split; [reflexivity|]. split; [reflexivity|].
  intros r n. cbn zeta. cbn [Controller.run].
  destruct (run_same_but_log k w r (sched_log (-1)) (sched_log r) n
              (step k w init) (step k (with_sched r w) init))
    as (H1 & _ & H2 & H3 & H4 & H5 & H6 & H7 & H8 & H9).
  - rewrite Hstep. unfold same_but_log, sched_log. cbn.
    repeat (split; [first [reflexivity | discriminate]|]).
    now exists [].
  - repeat (split; [assumption|]). exact H9.
Qed.

Lemma realtime_failure_not_fatal_witness :
  pc (step repo_constants (with_sched (-1) (sample_world 100)) init) = L92 /\
  pc (run repo_constants (with_sched (-1) (sample_world 100)) 16 init) =
  pc (run repo_constants (with_sched 0 (with_sched (-1) (sample_world 100)))
        16 init).
Proof.
  destruct (realtime_failure_not_fatal repo_constants
              (with_sched (-1) (sample_world 100)) eq_refl)
    as (_ & Hpc & _ & Hsame).
  split; [exact Hpc|].
  exact (proj1 (Hsame 0 15%nat)).
Defined.

Lemma first_step k w :
  step k w init =
  State L92 true false None 0 0 0 1 (sched_log (sched_setscheduler w)).
Proof. reflexivity. Qed.

Lemma sched_log_quiet ret :
  count is_throw (sched_log ret) = 0%nat /\
  count is_loop_event (sched_log ret) = 0%nat.
Proof.
  unfold sched_log, set_realtime_priority, count.
  destruct (ret =? -1); split; reflexivity.
Qed.

(** The run of a world whose acquisition fails, from line 92 on. *)
Lemma failing_start k w what lg :
  acquisition_fault w = Some what ->
  count is_throw lg = 0%nat -> count is_loop_event lg = 0%nat ->
  exists n, (n <= 7)%nat /\
    (forall j, (j <= n)%nat ->
       count is_loop_event
         (trace (run k w j (State L92 true false None 0 0 0 1 lg))) = 0%nat) /\
    let s := run k w n (State L92 true false None 0 0 0 1 lg) in
    pc s = Exit 1 /\
    (exists tl, trace s = Print Cerr error_hint
                  :: Print Cerr ("Error: " ++ what)%string
                  :: Throw what :: tl) /\
    count is_throw (trace s) = 1%nat.
Proof.
  intros Hfault Hthrow Hloop. unfold acquisition_fault in Hfault.
  destruct w as [sr co xg xr lg' lr ew nw si]. cbn in Hfault.
  unfold count in *.
  destruct co as [e1|]; [|destruct xg as [e2|];
    [|destruct xr as [e3|]; [|destruct lg' as [e4|]; [|destruct lr as [e5|]]]]];
    try discriminate; injection Hfault as ->.
  1: exists 2%nat. 2: exists 3%nat. 3: exists 4%nat.
  4: exists 6%nat. 5: exists 7%nat.
  all: (split; [lia|]; split;
    [ intros j Hj; do 8 (destruct j as [|j]; [cbn; assumption|]); lia
    | cbn; split; [reflexivity|]; split; [eexists; reflexivity|];
      now rewrite Hthrow ]).
Qed.

(** C8. When a call that opens the chip or acquires a line throws, the
    exception reaches the handler of line 152: the process prints the
    error and the hint and returns 1 within eight steps; it has thrown
    once, and nothing follows the return (no call is made again).  No run
    of such a world ever performs an event of the trigger loop. *)
Theorem acquisition_failure_fatal (k : constants) (w : world) (what : string) :
  acquisition_fault w = Some what ->
  (exists n, (n <= 8)%nat /\
     pc (run k w n init) = Exit 1 /\
     (exists tl,
        trace (run k w n init) =
          Print Cerr error_hint :: Print Cerr ("Error: " ++ what)%string
          :: Throw what :: tl) /\
     count is_throw (trace (run k w n init)) = 1%nat /\
     forall m, (n <= m)%nat -> run k w m init = run k w n init) /\
  (forall m, count is_loop_event (trace (run k w m init)) = 0%nat).
Proof.
  intros Hfault.
  destruct (sched_log_quiet (sched_setscheduler w)) as [Hq1 Hq2].
  destruct (failing_start k w what (sched_log (sched_setscheduler w))
              Hfault Hq1 Hq2)
    as (n & Hn & Hsmall & Hpc & Htl & Hthrow).
  assert (Hrun : forall j, run k w (S j) init =
            run k w j (State L92 true false None 0 0 0 1
                         (sched_log (sched_setscheduler w)))).
  { intros j. cbn [Controller.run]. now rewrite first_step. }
  assert (Hhalt : halted (run k w (S n) init) = true).
  { rewrite Hrun. unfold halted. now rewrite Hpc. }
  assert (Hstay : forall m, (S n <= m)%nat ->
                    run k w m init = run k w (S n) init).
  { intros m Hm. replace m with (S n + (m - S n))%nat by lia.
    rewrite run_add. now apply run_halted. }
  split.
  - exists (S n). rewrite Hrun. repeat split; auto. lia.
  - intros m. destruct (Nat.le_gt_cases m (S n)) as [Hle|Hgt].
    + destruct m as [|m]; [reflexivity|].
      rewrite Hrun. apply Hsmall. lia.
    + rewrite Hstay by lia. rewrite Hrun. apply Hsmall. lia.
Qed.

Lemma acquisition_failure_fatal_witness :
  pc (run repo_constants busy_world 8 init) = Exit 1.
Proof.
  destruct (acquisition_failure_fatal repo_constants busy_world
              "Device or resource busy" eq_refl)
    as [(n & Hn & Hpc & _ & _ & Hstay) _].
  rewrite (Hstay 8%nat Hn). exact Hpc.
Defined.

(** C7. [running] starts as [true]; the handler never yields [true] from
    [false]; a step changes [running] only when the registered handler is
    run by a SIGINT, and then to [false]; hence along every run, once
    [running] is [false] it is [false] at every later step. *)
Theorem running_only_falls :
  running init = true /\
  (forall signum r, signal_handler signum r = true -> r = true) /\
  (forall signum r, signal_handler signum r <> r ->
     signum = SIGINT /\ signal_handler signum r = false) /\
  (forall k w s, running (step k w s) <> running s ->
     running s = true /\ running (step k w s) = false /\
     installed s = true /\ sigint w (ticks s) = true) /\
  (forall k w n m, (n <= m)%nat ->
     running (run k w n init) = false -> running (run k w m init) = false).
Proof.
  split; [reflexivity|]. split; [|split; [|split]].
  - intros signum r. unfold signal_handler.
    destruct (signum =? SIGINT); [discriminate|auto].
  - intros signum r. unfold signal_handler.
    destruct (signum =? SIGINT) eqn:E; [|congruence].
    intros _. apply Z.eqb_eq in E. auto.
  - intros k w s Hne. destruct (step_running k w s) as [E|(E & Hi & Hs)].
    + congruence.
    + repeat split; auto. destruct (running s); congruence.
  - intros k w n m Hle Hn.
    replace m with (n + (m - n))%nat by lia.
    rewrite run_add. now apply run_keeps_cancelled.
Qed.

Lemma running_only_falls_witness :
  running (run repo_constants (sample_world 11) 12 init) = false /\
  running (run repo_constants (sample_world 11) 25 init) = false.
Proof.
  assert (H : running (run repo_constants (sample_world 11) 12 init) = false)
    by reflexivity.
  split; [exact H|].
  destruct running_only_falls as (_ & _ & _ & _ & Hmono).
  apply (Hmono repo_constants (sample_world 11) 12%nat 25%nat); [lia|exact H].
Defined.

End ControllerFacts.
